(** * Talker-variability L2-to-L1 task: event timeline and onset detection

    A shallow embedding of the two programs of the repository:

    - [Results/analyze_latency.py], the offline onset detector
      ([rolling_energy_db], [detect_onset_after], [build_wav_path],
      [analyze]);
    - [L2_to_L1.py], the trial orchestrator ([run_trial], [run_task],
      [initialize_audio], [show_fixation], [save_detailed_log]).

    Numbers.  Python floats are embedded as exact rationals ([Q]): every
    comparison, [max], [min], [round] and [int] is the Python one on the
    rational value; rounding error, NaN and infinities of IEEE floats are
    outside the model, except for the NaN of an empty CSV cell, which has a
    constructor of its own.  [np.log10] is a parameter of the development.
    Integers are [Z]; a sample rate, which the audio reader reports from a
    WAV header, is a [positive]. *)

From Stdlib Require Import QArith Qround Lqa Lia ZArith.
From Stdlib Require Import Ascii String.
From stdpp Require Import base option list strings gmap sorting.

Open Scope Q_scope.

(** ** Python and NumPy primitives *)

Module Py.

(** [x < y] on floats. *)
Definition ltb (x y : Q) : bool :=
  match x ?= y with Lt => true | _ => false end.

(** The builtin [max(a, b)]: the first argument unless the second is
    strictly greater. *)
Definition max (a b : Q) : Q := if ltb a b then b else a.

(** The builtin [round(x)] of a float: nearest integer, a tie goes to the
    even neighbour. *)
Definition round (x : Q) : Z :=
  let f := Qfloor x in
  let r := x - inject_Z f in
  if ltb r (1#2) then f
  else if ltb (1#2) r then (f + 1)%Z
  else if Z.even f then f else (f + 1)%Z.

(** [int(x)] of a float: truncation towards zero. *)
Definition int (x : Q) : Z := Z.quot (Qnum x) (Zpos (Qden x)).

(** Normalisation of one bound of a slice [l[lo:hi]] on a sequence of
    length [len]: a negative bound counts from the end, and both are
    clipped to [0..len]. *)
Definition slice_bound (len k : Z) : Z :=
  if (k <? 0)%Z then Z.max 0 (k + len) else Z.min k len.

(** [l[lo:hi]]. *)
Definition slice {A} (l : list A) (lo hi : Z) : list A :=
  let n := Z.of_nat (length l) in
  let a := slice_bound n lo in
  let b := slice_bound n hi in
  take (Z.to_nat (b - a)) (drop (Z.to_nat a) l).

(** [l[lo:]] and [l[:hi]]. *)
Definition slice_from {A} (l : list A) (lo : Z) : list A :=
  slice l lo (Z.of_nat (length l)).
Definition slice_to {A} (l : list A) (hi : Z) : list A :=
  slice l 0 hi.

(** [np.all] on a boolean array. *)
Definition np_all (l : list bool) : bool := forallb id l.

End Py.

(** ** Onset detector: [detect_onset_after] *)

(** The loop [for i in range(len(above))] of [detect_onset_after]; [todo]
    counts the indices of the range still to visit.  A frame that is not
    above is skipped ([continue]); at a frame that is above, the scan stops
    ([break]) when [min_frames] frames no longer fit, and otherwise tests
    the slice [above[i : i + min_frames]]. *)
Fixpoint onset_scan (above : list bool) (min_frames : Z)
    (todo i : nat) : option nat :=
  match todo with
  | O => None
  | S todo' =>
      match above !! i with
      | Some true =>
          if (Z.of_nat i + min_frames >? Z.of_nat (length above))%Z then None
          else if Py.np_all
                    (Py.slice above (Z.of_nat i) (Z.of_nat i + min_frames))
               then Some i
               else onset_scan above min_frames todo' (S i)
      | _ => onset_scan above min_frames todo' (S i)
      end
  end.

(** [start_idx = min(len(energy_db), max(0, int(round(start_ms / 1000.0 *
    sample_rate))))]. *)
Definition start_index (energy_db : list Q) (sample_rate : positive)
    (start_ms : Q) : Z :=
  let start_sample :=
    Py.round (start_ms / 1000 * inject_Z (Zpos sample_rate)) in
  Z.min (Z.of_nat (length energy_db)) (Z.max 0 start_sample).

(** The time in ms of the centre of the frame that starts at sample
    [idx]: [(idx + frame_length / 2.0) / sample_rate * 1000.0]. *)
Definition frame_centre_ms (sample_rate : positive) (frame_length : Z)
    (idx : Z) : Q :=
  (inject_Z idx + inject_Z frame_length / 2)
    / inject_Z (Zpos sample_rate) * 1000.

Definition detect_onset_after (energy_db : list Q) (sample_rate : positive)
    (frame_length : Z) (start_ms threshold_db : Q) (min_frames : Z)
    : option Q :=
  let start_idx := start_index energy_db sample_rate start_ms in
  let above :=
    map (fun e => Py.ltb threshold_db e) (Py.slice_from energy_db start_idx) in
  match onset_scan above min_frames (length above) 0 with
  | None => None
  | Some i =>
      let onset_idx := (start_idx + Z.of_nat i)%Z in
      Some (frame_centre_ms sample_rate frame_length onset_idx)
  end.

(** ** Short-time energy: [rolling_energy_db] *)

(** A Python float that need not be finite. *)
Inductive pyfloat :=
| Fin (q : Q)
| NaN
| PosInf
| NegInf.

(** The value of one field of a row: [None], a float (NaN for an empty CSV
    cell), a bool or a string. *)
Inductive cell :=
| VNone
| VFloat (f : pyfloat)
| VBool (b : bool)
| VStr (s : string).

(** Library functions the detector calls and whose code is not part of the
    repository.  [np_log10] is [np.log10]; the text functions are the ones
    [build_wav_path] and [analyze] use: [str(...)] of a field, [str.strip],
    [str.lower], [strip_accents] (Unicode decomposition), [os.path.join],
    and [float(s)] of a string ([None] when it raises [ValueError]). *)
Class Library := {
  np_log10 : Q -> Q;
  py_str : cell -> string;
  py_str_strip : string -> string;
  py_str_lower : string -> string;
  strip_accents : string -> string;
  os_path_join : string -> string -> string;
  float_of_string : string -> option pyfloat;
}.

(** [np.square]. *)
Definition np_square (a : list Q) : list Q := map (fun x => x * x) a.

(** Inner product of a window with the head of an array. *)
Fixpoint dot (a w : list Q) : Q :=
  match a, w with
  | x :: a', y :: w' => x * y + dot a' w'
  | _, _ => 0
  end.

(** [count] consecutive positions of the window [w] sliding over [a]. *)
Fixpoint correlate_valid (a w : list Q) (count : nat) : list Q :=
  match count with
  | O => []
  | S count' => dot a w :: correlate_valid (tail a) w count'
  end.

(** [np.convolve(a, v, mode="valid")]: the longer array is taken as the
    signal, an empty argument raises [ValueError] ([None]), and the result
    has [max(n, m) - min(n, m) + 1] entries. *)
Definition np_convolve_valid (a v : list Q) : option (list Q) :=
  let '(a, v) := if (length a <? length v)%nat then (v, a) else (a, v) in
  match v with
  | [] => None
  | _ => Some (correlate_valid a (reverse v) (length a - length v + 1))
  end.

(** The floor [1e-12] under the logarithm. *)
Definition energy_floor : Q := 1 # 1000000000000.

(** [np.maximum(e, floor)] on one entry. *)
Definition np_maximum (e floor : Q) : Q := if Py.ltb e floor then floor else e.

Definition rolling_energy_db `{Library} (signal : list Q)
    (sample_rate : positive) (frame_ms : Q) : option (list Q * Z) :=
  let frame_length :=
    Z.max 1 (Py.round (inject_Z (Zpos sample_rate) * frame_ms / 1000)) in
  let window :=
    replicate (Z.to_nat frame_length) (1 / inject_Z frame_length) in
  energy ← np_convolve_valid (np_square signal) window;
  let energy_db :=
    map (fun e => 10 * np_log10 (np_maximum e energy_floor)) energy in
  Some (energy_db, frame_length).

(** ** Order statistics: [np.percentile], [np.median], [np.max] *)

Definition Qle_dec (x y : Q) : Decision (x <= y) :=
  match Qlt_le_dec y x with
  | left H => right (Qlt_not_le _ _ H)
  | right H => left H
  end.
#[global] Existing Instance Qle_dec.

(** [np.percentile(a, p)] with the default linear interpolation: on the
    sorted array of [n] entries the virtual index is [(n - 1) * p / 100],
    and the result interpolates between its two neighbours.  An empty array
    gives NaN ([None]). *)
Definition interpolate (s : list Q) (x0 p : Q) : Q :=
  let n := length s in
  let pos := inject_Z (Z.of_nat (n - 1)) * p / 100 in
  let lo := Z.to_nat (Qfloor pos) in
  let hi := Nat.min (S lo) (n - 1) in
  let gamma := pos - inject_Z (Qfloor pos) in
  let vlo := nth lo s x0 in
  let vhi := nth hi s x0 in
  vlo + (vhi - vlo) * gamma.

Definition np_percentile (a : list Q) (p : Q) : option Q :=
  match merge_sort Qle a with
  | [] => None
  | x0 :: s => Some (interpolate (x0 :: s) x0 p)
  end.

(** [np.median(a)] is the percentile 50. *)
Definition np_median (a : list Q) : option Q := np_percentile a 50.

(** [np.max(a)] of a non-empty array. *)
Definition np_max (a : list Q) : option Q :=
  match a with
  | [] => None
  | x :: a' => Some (foldl (fun m e => if Py.ltb m e then e else m) x a')
  end.

(** ** The latency analysis: [build_wav_path] and [analyze] *)

(** One row of the results table ([row.to_dict()]): column name to value. *)
Abbreviation row := (gmap string cell).

(** What [sf.read] returns: a 1-D array for a mono file, frames of channels
    otherwise. *)
Inductive sf_data :=
| Mono (samples : list Q)
| Multi (frames : list (list Q)).

(** A path of the recordings directory: no file ([os.path.isfile] is
    false), a file [sf.read] fails on with the given error text, or a
    readable recording with its sample rate. *)
Inductive wav_file :=
| Absent
| Unreadable (error : string)
| Audio (data : sf_data) (sample_rate : positive).

Abbreviation filesystem := (string -> wav_file).

(** The numeric options of the command line. *)
Record options := {
  threshold_db : Q;
  frame_ms : Q;
  min_frames : Z;
  guard_ms : Q;
}.

(** [row.get(key, default)]. *)
Definition row_get (r : row) (key : string) (dflt : cell) : cell :=
  default dflt (r !! key).

Definition reconstructed_filename `{Library} (r : row) : string :=
  let pid := py_str_strip (py_str (row_get r "participant_id" (VStr ""))) in
  let trial := py_str_strip (py_str (row_get r "trial" (VStr ""))) in
  let voice :=
    py_str_lower (py_str_strip (py_str (row_get r "voice" (VStr "")))) in
  let word_raw := py_str_strip (py_str (row_get r "word" (VStr ""))) in
  let word := strip_accents word_raw in
  pid +:+ "_trial" +:+ trial +:+ "_" +:+ voice +:+ "_" +:+ word +:+ ".wav".

Definition build_wav_path `{Library} (r : row) (wav_dir : string) : string :=
  match r !! "recording_file" with
  | Some (VStr s) =>
      if decide (s = "") then os_path_join wav_dir (reconstructed_filename r)
      else os_path_join wav_dir s
  | _ => os_path_join wav_dir (reconstructed_filename r)
  end.

(** [result = row.to_dict(); result.update({...})]: the eight keys are
    written over the row, whatever it held under them. *)
Definition initial_result (r : row) (wav_path : string) : row :=
  <["note" := VStr ""]>
  (<["status" := VStr "ok"]>
  (<["median_energy_db" := VNone]>
  (<["max_energy_db" := VNone]>
  (<["onset_ms_from_recording_start" := VNone]>
  (<["latency_ms_from_playback_end" := VNone]>
  (<["playback_end_ms_rel" := VNone]>
  (<["audio_path" := VStr wav_path]> r))))))).

(** [float(x)] of a field; [None] when it raises. *)
Definition py_float `{Library} (c : cell) : option pyfloat :=
  match c with
  | VNone => None
  | VFloat f => Some f
  | VBool b => Some (Fin (if b then 1 else 0))
  | VStr s => float_of_string s
  end.

(** [a - b] on floats. *)
Definition pyfloat_sub (a b : pyfloat) : pyfloat :=
  match a, b with
  | Fin x, Fin y => Fin (x - y)
  | NaN, _ => NaN
  | _, NaN => NaN
  | PosInf, PosInf => NaN
  | NegInf, NegInf => NaN
  | PosInf, _ => PosInf
  | NegInf, _ => NegInf
  | Fin _, PosInf => NegInf
  | Fin _, NegInf => PosInf
  end.

(** [max(0.0, d)]: [0.0] unless [d > 0.0], so NaN gives [0.0]. *)
Definition max_zero (d : pyfloat) : pyfloat :=
  match d with
  | Fin q => Fin (Py.max 0 q)
  | PosInf => PosInf
  | NaN | NegInf => Fin 0
  end.

(** [np.mean] of one frame over its channels. *)
Definition np_mean (frame : list Q) : Q :=
  foldr Qplus 0 frame / inject_Z (Z.of_nat (length frame)).

(** [if signal.ndim > 1: signal = np.mean(signal, axis=1)]. *)
Definition to_mono (data : sf_data) : list Q :=
  match data with
  | Mono samples => samples
  | Multi frames => map np_mean frames
  end.

(** The region of [energy_db] before the end of playback:
    [energy_db[: int(max(1, playback_end_rel / 1000.0 * sample_rate))]]. *)
Definition pre_region (energy_db : list Q) (sample_rate : positive)
    (playback_end_rel : Q) : list Q :=
  Py.slice_to energy_db
    (Py.int (Py.max 1 (playback_end_rel / 1000 * inject_Z (Zpos sample_rate)))).

(** [max(threshold_db - 5.0, noise_db + 6.0)]; a NaN noise estimate never
    compares greater. *)
Definition fallback_threshold (threshold_db : Q) (noise_db : option Q) : Q :=
  match noise_db with
  | Some n => Py.max (threshold_db - 5) (n + 6)
  | None => threshold_db - 5
  end.

(** The outcome of the two detection passes of [analyze]. *)
Record detection := {
  onset_ms : option Q;
  fallback_used : bool;
  dynamic_threshold : Q;
}.

(** Primary detection, and the fallback pass when it found nothing and the
    pre-playback region is not empty. *)
Definition detect_with_fallback (energy_db : list Q) (sample_rate : positive)
    (frame_length : Z) (playback_end_rel : Q) (o : options) : detection :=
  let start_ms := playback_end_rel + guard_ms o in
  let primary :=
    detect_onset_after energy_db sample_rate frame_length start_ms
      (threshold_db o) (min_frames o) in
  let pre := pre_region energy_db sample_rate playback_end_rel in
  match primary, pre with
  | None, _ :: _ =>
      let noise_db := np_percentile pre 75 in
      let dyn := fallback_threshold (threshold_db o) noise_db in
      {| onset_ms :=
           detect_onset_after energy_db sample_rate frame_length start_ms
             dyn (min_frames o);
         fallback_used := true;
         dynamic_threshold := dyn |}
  | _, _ =>
      {| onset_ms := primary;
         fallback_used := false;
         dynamic_threshold := threshold_db o |}
  end.

(** [float(np.max(energy_db)) if energy_db.size else float("-inf")], and
    the same for the median. *)
Definition stat_cell (stat : option Q) : cell :=
  match stat with
  | Some m => VFloat (Fin m)
  | None => VFloat NegInf
  end.

(** The fields written once detection has run. *)
Definition detection_result (result : row) (energy_db : list Q)
    (playback_end_rel : Q) (d : detection) : row :=
  let result := <["max_energy_db" := stat_cell (np_max energy_db)]> result in
  let result :=
    <["median_energy_db" := stat_cell (np_median energy_db)]> result in
  let result :=
    <["dynamic_threshold_db" := VFloat (Fin (dynamic_threshold d))]> result in
  let result := <["fallback_used" := VBool (fallback_used d)]> result in
  match onset_ms d with
  | None =>
      <["note" := VStr "No onset above threshold after playback end"]>
      (<["status" := VStr "no_speech_detected"]> result)
  | Some t =>
      <["note" := VStr ""]>
      (<["latency_ms_from_playback_end" := VFloat (Fin (t - playback_end_rel))]>
      (<["onset_ms_from_recording_start" := VFloat (Fin t)]> result))
  end.

(** [playback_end_rel = max(0.0, playback_end_abs - rec_start_abs)], both
    read from the row with [float(row.get(..., 0.0))]; [None] when [float]
    raises. *)
Definition playback_end_rel_of `{Library} (r : row) : option pyfloat :=
  playback_end_abs ← py_float (row_get r "playback_end_ms" (VFloat (Fin 0)));
  rec_start_abs ← py_float (row_get r "recording_start_ms" (VFloat (Fin 0)));
  Some (max_zero (pyfloat_sub playback_end_abs rec_start_abs)).

(** The body of the loop of [analyze] for one row; [None] when an exception
    leaves the loop: [np.convolve] on an empty recording, [float] on a field
    that is not a number, [round] on an infinite start time.  The QC plot is
    drawn inside its own [try] and writes nothing into the record. *)
Definition analyze_row `{Library} (fs : filesystem) (wav_dir : string)
    (o : options) (r : row) : option row :=
  let wav_path := build_wav_path r wav_dir in
  let result := initial_result r wav_path in
  match fs wav_path with
  | Absent =>
      Some (<["note" := VStr "WAV not found"]>
            (<["status" := VStr "missing"]> result))
  | Unreadable error =>
      Some (<["note" := VStr ("read error: " +:+ error)]>
            (<["status" := VStr "read_error"]> result))
  | Audio data sample_rate =>
      let signal := to_mono data in
      '(energy_db, frame_length) ←
        rolling_energy_db signal sample_rate (frame_ms o);
      rel ← playback_end_rel_of r;
      match rel with
      | Fin playback_end_rel =>
          let result :=
            <["playback_end_ms_rel" := VFloat (Fin playback_end_rel)]> result in
          let d :=
            detect_with_fallback energy_db sample_rate frame_length
              playback_end_rel o in
          Some (detection_result result energy_db playback_end_rel d)
      | _ => None
      end
  end.

(** [for _, row in df.iterrows(): ... records.append(result)]. *)
Fixpoint analyze_loop `{Library} (fs : filesystem) (wav_dir : string)
    (o : options) (rows : list row) (records : list row)
    : option (list row) :=
  match rows with
  | [] => Some records
  | r :: rows' =>
      result ← analyze_row fs wav_dir o r;
      analyze_loop fs wav_dir o rows' (records ++ [result])
  end.

(** [analyze]: the records in a data frame, one per entry of [records]. *)
Definition analyze `{Library} (fs : filesystem) (wav_dir : string)
    (o : options) (df : list row) : option (list row) :=
  analyze_loop fs wav_dir o df [].

(** ** The trial orchestrator: events, task state and devices *)

Definition FIXED_STIMULUS_TIME : Q := 6.
Definition ITI_DURATION : Q := 3 # 2.

Inductive event_type :=
| experiment_start
| initial_long_rest
| trial_start
| audio_recording_start
| audio_playback_start
| prompt_onset
| audio_playback_end
| audio_recording_end
| fixation_onset
| trial_end
| experiment_end
| final_long_rest.

#[global] Instance event_type_eq_dec : EqDecision event_type.
Proof. solve_decision. Defined.

(** One entry of [detailed_log].  [timestamp] keeps the absolute time the
    source formats into a string; [extras] holds the keys that only some
    event types carry. *)
Record event := {
  ev_type : event_type;
  ev_trial : Z;
  onset : Q;
  duration : option Q;
  timestamp : Q;
  extras : list (string * cell);
}.

(** One stimulus ([trial] in the source). *)
Record stimulus := {
  spanish : string;
  japanese : string;
  word_id : Z;
}.

(** The fields of [L2ToL1Task] the trial loop reads and writes.
    [rec_attempts] is not a field of the class: it records every call of
    [sd.rec], with the trial number and whether the call returned. *)
Record task := {
  participant_id : string;
  session_label : string;
  recordings_dir : string;
  audio_available : bool;
  audio_error : option string;
  playback_available : bool;
  playback_error : option string;
  trigger_time : option Q;
  detailed_log : list event;
  rec_attempts : list (Z * bool);
}.

Definition set_audio (st : task) (available : bool) (error : option string)
    : task :=
  {| participant_id := participant_id st;
     session_label := session_label st;
     recordings_dir := recordings_dir st;
     audio_available := available;
     audio_error := error;
     playback_available := playback_available st;
     playback_error := playback_error st;
     trigger_time := trigger_time st;
     detailed_log := detailed_log st;
     rec_attempts := rec_attempts st |}.

Definition set_playback (st : task) (available : bool)
    (error : option string) : task :=
  {| participant_id := participant_id st;
     session_label := session_label st;
     recordings_dir := recordings_dir st;
     audio_available := audio_available st;
     audio_error := audio_error st;
     playback_available := available;
     playback_error := error;
     trigger_time := trigger_time st;
     detailed_log := detailed_log st;
     rec_attempts := rec_attempts st |}.

Definition set_trigger (st : task) (t : option Q) : task :=
  {| participant_id := participant_id st;
     session_label := session_label st;
     recordings_dir := recordings_dir st;
     audio_available := audio_available st;
     audio_error := audio_error st;
     playback_available := playback_available st;
     playback_error := playback_error st;
     trigger_time := t;
     detailed_log := detailed_log st;
     rec_attempts := rec_attempts st |}.

Definition set_log (st : task) (log : list event) : task :=
  {| participant_id := participant_id st;
     session_label := session_label st;
     recordings_dir := recordings_dir st;
     audio_available := audio_available st;
     audio_error := audio_error st;
     playback_available := playback_available st;
     playback_error := playback_error st;
     trigger_time := trigger_time st;
     detailed_log := log;
     rec_attempts := rec_attempts st |}.

(** [self.detailed_log.append(e)]. *)
Definition log_append (st : task) (e : event) : task :=
  set_log st (detailed_log st ++ [e]).

Definition note_rec_attempt (st : task) (trial_no : Z) (ok : bool) : task :=
  {| participant_id := participant_id st;
     session_label := session_label st;
     recordings_dir := recordings_dir st;
     audio_available := audio_available st;
     audio_error := audio_error st;
     playback_available := playback_available st;
     playback_error := playback_error st;
     trigger_time := trigger_time st;
     detailed_log := detailed_log st;
     rec_attempts := rec_attempts st ++ [(trial_no, ok)] |}.

(** [L2ToL1Task.__init__], with the names [get_participant_info] fills in. *)
Definition new_task (pid label dir : string) : task :=
  {| participant_id := pid;
     session_label := label;
     recordings_dir := dir;
     audio_available := false;
     audio_error := None;
     playback_available := false;
     playback_error := None;
     trigger_time := None;
     detailed_log := [];
     rec_attempts := [] |}.

(** [t - self.trigger_time if self.trigger_time else 0]: a trigger time
    that is [None] or [0] is false. *)
Definition relative_time (trigger : option Q) (t : Q) : Q :=
  match trigger with
  | Some t0 => if Qeq_bool t0 0 then 0 else t - t0
  | None => 0
  end.

(** Truth of [playback_start_time] in a condition. *)
Definition time_is_set (t : option Q) : bool :=
  match t with
  | Some x => negb (Qeq_bool x 0)
  | None => false
  end.

(** Events of the window system. *)
Inductive key := K_ESCAPE | K_SPACE | K_5 | K_OTHER.
Inductive pg_event := QUIT | KEYDOWN (k : key) | OTHER_EVENT.

(** [event.type == QUIT] or [KEYDOWN] with [K_ESCAPE]. *)
Definition is_cancel (e : pg_event) : bool :=
  match e with
  | QUIT => true
  | KEYDOWN K_ESCAPE => true
  | _ => false
  end.

(** [pygame.mixer.Sound(path)]: [pygame.error], or a sound with its
    length. *)
Inductive sound_load := SoundError | SoundLoaded (length : Q).

(** [playback_sound.play()]: [pygame.error], no free channel, or a
    channel. *)
Inductive play_result := PlayError | NoChannel | Channel.

(** One iteration of the stimulus window: what [pygame.event.get()]
    returns, what [get_busy()] answers if it is asked, and the clock if it
    is read. *)
Record tick := {
  tick_events : list pg_event;
  tick_busy : bool;
  tick_time : Q;
}.

(** What the devices, the files and the clock answer during one trial, in
    program order.  [stimulus_ticks] are the iterations for which
    [time.time() - stimulus_start_time < FIXED_STIMULUS_TIME] held, and
    [fixation_polls] those of the loop of [show_fixation]. *)
Record trial_env := {
  t_trial_start : Q;
  stim_file_exists : bool;
  sound : sound_load;
  rec_error : option string;
  t_audio_start : Q;
  play : play_result;
  t_playback_start : Q;
  t_prompt_onset : Q;
  stimulus_ticks : list tick;
  write_error : option string;
  t_audio_end : Q;
  t_playback_stop : Q;
  t_fixation_start : Q;
  fixation_polls : list (list pg_event);
  t_fixation_abort : Q;
  t_trial_end : Q;
}.

(** [show_fixation]: [False] at the first poll that holds a cancel event,
    [True] when the duration has elapsed. *)
Fixpoint show_fixation (polls : list (list pg_event)) : bool :=
  match polls with
  | [] => true
  | evs :: polls' => if existsb is_cancel evs then false else show_fixation polls'
  end.

Definition opt_str (s : option string) : cell :=
  match s with
  | Some x => VStr x
  | None => VNone
  end.

(** [get_trial_audio_path], up to the directory: the file name is built
    from the participant, the session, the trial number printed on two
    digits and the alphanumeric characters of the word. *)
Class Formatting := {
  isalnum : ascii -> bool;
  format_02d : Z -> string;
  format_d : Z -> string;
}.

(** [''.join(ch for ch in word if keep(ch))]. *)
Fixpoint filter_string (keep : ascii -> bool) (s : string) : string :=
  match s with
  | EmptyString => EmptyString
  | String ch s' =>
      if keep ch then String ch (filter_string keep s')
      else filter_string keep s'
  end.

Definition safe_word `{Formatting} (trial_idx : Z) (s : stimulus) : string :=
  let kept := filter_string isalnum (spanish s) in
  if decide (kept = "") then "trial" +:+ format_d (trial_idx + 1) else kept.

Definition get_trial_audio_filename `{Formatting} (st : task) (trial_idx : Z)
    (s : stimulus) : string :=
  participant_id st +:+ "_" +:+ session_label st +:+ "_trial"
    +:+ format_02d (trial_idx + 1) +:+ "_" +:+ safe_word trial_idx s +:+ ".wav".

(** ** One trial: [run_trial] *)

Definition mk_event (ty : event_type) (trial_no : Z) (ons : Q)
    (dur : option Q) (ts : Q) (ex : list (string * cell)) : event :=
  {| ev_type := ty; ev_trial := trial_no; onset := ons; duration := dur;
     timestamp := ts; extras := ex |}.

Definition set_duration (d : Q) (e : event) : event :=
  mk_event (ev_type e) (ev_trial e) (onset e) (Some d) (timestamp e)
    (extras e).

(** The row [run_trial] returns for a completed trial. *)
Record trial_info := {
  ti_trial : Z;
  ti_spanish_word : string;
  ti_japanese_target : string;
  ti_word_id : Z;
  ti_recording_file : option string;
  ti_trial_start_time_abs : Q;
  ti_trial_end_time_abs : Q;
  ti_trial_duration : Q;
  ti_playback_audio_file : option string;
  ti_playback_duration : option Q;
}.

(** The [trial_start] entry, appended when the trial begins. *)
Definition begin_trial (st : task) (trial_no : Z) (s : stimulus) (t0 : Q)
    : task :=
  log_append st
    (mk_event trial_start trial_no (relative_time (trigger_time st) t0) None
       t0 [("spanish_word", VStr (spanish s));
           ("japanese_target", VStr (japanese s))]).

(** Loading the stimulus: the length of the sound when the playback device
    is available, the file exists and [pygame.mixer.Sound] accepts it. *)
Definition load_sound (st : task) (env : trial_env) : option Q :=
  if playback_available st && stim_file_exists env then
    match sound env with
    | SoundLoaded len => Some len
    | SoundError => None
    end
  else None.

(** [if self.audio_available: ... sd.rec(...) ...]: the new state, and the
    name of the recording when one was started.  When [sd.rec] raises, the
    flag [audio_available] is cleared. *)
Definition start_recording `{Formatting} (st : task) (trial_idx : Z)
    (s : stimulus) (env : trial_env) : task * option string :=
  if audio_available st then
    let audio_filename := get_trial_audio_filename st trial_idx s in
    match rec_error env with
    | None =>
        let st := note_rec_attempt st (trial_idx + 1) true in
        let t := t_audio_start env in
        (log_append st
           (mk_event audio_recording_start (trial_idx + 1)
              (relative_time (trigger_time st) t) (Some FIXED_STIMULUS_TIME) t
              [("audio_file", VStr audio_filename)]),
         Some audio_filename)
    | Some e =>
        let st := note_rec_attempt st (trial_idx + 1) false in
        (set_audio st false (Some e), None)
    end
  else (st, None).

(** [if playback_sound is not None: ... playback_sound.play() ...]: the new
    state, whether a channel was obtained, and [playback_start_time]. *)
Definition start_playback (st : task) (trial_no : Z) (env : trial_env)
    (playback_sound : option Q) (playback_file : option string)
    : task * bool * option Q :=
  match playback_sound with
  | None => (st, false, None)
  | Some len =>
      match play env with
      | Channel =>
          let t := t_playback_start env in
          (log_append st
             (mk_event audio_playback_start trial_no
                (relative_time (trigger_time st) t) (Some len) t
                [("playback_file", opt_str playback_file)]),
           true, Some t)
      | NoChannel => (st, false, None)
      | PlayError => (st, false, None)
      end
  end.

Definition playback_end_event (st : task) (trial_no : Z)
    (playback_file : option string) (t : Q) : event :=
  mk_event audio_playback_end trial_no (relative_time (trigger_time st) t)
    (Some 0) t [("playback_file", opt_str playback_file)].

(** How the stimulus window ends: a cancel event ([return None, ...,
    time.time()]), or the time has elapsed, with the values of
    [playback_end_time] and [playback_end_logged]. *)
Inductive window_result :=
| WindowCancelled (t_return : Q)
| WindowElapsed (playback_end_time : option Q) (playback_end_logged : bool).

(** The loop [while time.time() - stimulus_start_time <
    FIXED_STIMULUS_TIME]. *)
Fixpoint stimulus_window (ticks : list tick) (st : task) (trial_no : Z)
    (playback_channel : bool) (playback_file : option string)
    (playback_end_time : option Q) (playback_end_logged : bool)
    : task * window_result :=
  match ticks with
  | [] => (st, WindowElapsed playback_end_time playback_end_logged)
  | tk :: ticks' =>
      if existsb is_cancel (tick_events tk) then
        (st, WindowCancelled (tick_time tk))
      else if playback_channel && negb playback_end_logged
                && negb (tick_busy tk) then
        let t := tick_time tk in
        stimulus_window ticks'
          (log_append st (playback_end_event st trial_no playback_file t))
          trial_no playback_channel playback_file (Some t) true
      else
        stimulus_window ticks' st trial_no playback_channel playback_file
          playback_end_time playback_end_logged
  end.

(** [if recording is not None and audio_path: sd.wait(); sf.write(...)]:
    the new state and the name kept for the recording. *)
Definition finish_recording (st : task) (trial_no : Z) (env : trial_env)
    (audio_filename : option string) : task * option string :=
  match audio_filename with
  | None => (st, None)
  | Some name =>
      match write_error env with
      | None =>
          let t := t_audio_end env in
          (log_append st
             (mk_event audio_recording_end trial_no
                (relative_time (trigger_time st) t) (Some 0) t
                [("audio_file", VStr name)]),
           Some name)
      | Some _ => (st, None)
      end
  end.

(** [if playback_start_time and playback_end_time is None]: the end of
    playback is logged after the window when the loop did not see it. *)
Definition force_playback_end (st : task) (trial_no : Z) (env : trial_env)
    (playback_file : option string) (playback_start_time : option Q)
    (playback_end_time : option Q) : task :=
  if time_is_set playback_start_time then
    match playback_end_time with
    | None =>
        log_append st
          (playback_end_event st trial_no playback_file (t_playback_stop env))
    | Some _ => st
    end
  else st.

Definition run_trial `{Formatting} (st : task) (trial_idx : Z) (s : stimulus)
    (env : trial_env) : task * (option trial_info * Q * Q) :=
  let trial_no := (trial_idx + 1)%Z in
  let trial_abs_start_time := t_trial_start env in
  let start_entry := length (detailed_log st) in
  let st := begin_trial st trial_no s trial_abs_start_time in
  let playback_sound := load_sound st env in
  let playback_file :=
    match playback_sound with
    | Some _ => Some (spanish s +:+ ".mp3")
    | None => None
    end in
  let '(st, audio_filename) := start_recording st trial_idx s env in
  let '(st, playback_channel, playback_start_time) :=
    start_playback st trial_no env playback_sound playback_file in
  let st :=
    log_append st
      (mk_event prompt_onset trial_no
         (relative_time (trigger_time st) (t_prompt_onset env))
         (Some FIXED_STIMULUS_TIME) (t_prompt_onset env)
         [("spanish_word", VStr (spanish s)); ("display", VStr "sound_icon");
          ("playback_file", opt_str playback_file)]) in
  match stimulus_window (stimulus_ticks env) st trial_no playback_channel
          playback_file None false with
  | (st, WindowCancelled t_return) =>
      (st, (None, trial_abs_start_time, t_return))
  | (st, WindowElapsed playback_end_time _) =>
      let '(st, audio_filename) :=
        finish_recording st trial_no env audio_filename in
      let st :=
        force_playback_end st trial_no env playback_file playback_start_time
          playback_end_time in
      let st :=
        log_append st
          (mk_event fixation_onset trial_no
             (relative_time (trigger_time st) (t_fixation_start env))
             (Some ITI_DURATION) (t_fixation_start env) []) in
      if show_fixation (fixation_polls env) then
        let trial_abs_end_time := t_trial_end env in
        let trial_duration := trial_abs_end_time - trial_abs_start_time in
        (* [trial_log_entry['duration'] = trial_duration]: the dictionary is
           the one the log holds at [start_entry]. *)
        let st :=
          set_log st
            (alter (set_duration trial_duration) start_entry
               (detailed_log st)) in
        let st :=
          log_append st
            (mk_event trial_end trial_no
               (relative_time (trigger_time st) trial_abs_end_time) (Some 0)
               trial_abs_end_time [("spanish_word", VStr (spanish s))]) in
        (st,
         (Some {| ti_trial := trial_no;
                  ti_spanish_word := spanish s;
                  ti_japanese_target := japanese s;
                  ti_word_id := word_id s;
                  ti_recording_file := audio_filename;
                  ti_trial_start_time_abs := trial_abs_start_time;
                  ti_trial_end_time_abs := trial_abs_end_time;
                  ti_trial_duration := trial_duration;
                  ti_playback_audio_file := playback_file;
                  ti_playback_duration := playback_sound |},
          trial_abs_start_time, trial_abs_end_time))
      else (st, (None, trial_abs_start_time, t_fixation_abort env))
  end.

(** ** The event timeline on disk: [save_detailed_log] *)

(** One row of the detailed log file: an event and the three columns
    [save_detailed_log] adds to every row. *)
Record log_row := {
  lr_event : event;
  lr_participant_id : string;
  lr_interrupted : bool;
  lr_recording_directory : string;
}.

(** [log_df.sort_values(by='onset')], the data-frame library's sort on the
    onset column with its default [kind]. *)
Class DataFrame := {
  sort_values_by_onset : list log_row -> list log_row;
}.

Definition row_onset (r : log_row) : Q := onset (lr_event r).

(** The order of two rows on the onset column. *)
Definition onset_le (a b : log_row) : Prop := row_onset a <= row_onset b.

#[global] Instance onset_le_dec : RelDecision onset_le :=
  fun a b => Qle_dec (row_onset a) (row_onset b).

(** What the library documents of [sort_values] with the default [kind]
    ([quicksort], which it documents as not stable): the rows come back
    rearranged in non-decreasing order of the column. *)
Definition sorts_by_onset (sort : list log_row -> list log_row) : Prop :=
  forall l, sort l ≡ₚ l /\ Sorted onset_le (sort l).

Definition tag_row (st : task) (interrupted : bool) (e : event) : log_row :=
  {| lr_event := e;
     lr_participant_id := participant_id st;
     lr_interrupted := interrupted;
     lr_recording_directory := recordings_dir st |}.

(** The rows written to the detailed log file; [None] when the log is empty
    and no file is written. *)
Definition save_detailed_log `{DataFrame} (st : task) (interrupted : bool)
    : option (list log_row) :=
  match detailed_log st with
  | [] => None
  | _ =>
      let log_df := map (tag_row st interrupted) (detailed_log st) in
      Some (sort_values_by_onset log_df)
  end.

(** ** The session: [initialize_audio], [initialize_playback], [run_task] *)

(** What the devices, the operator and the clock answer during a session.
    [trials] pairs each stimulus, in the shuffled order of
    [get_all_stimuli], with the answers of its trial. *)
Record session_env := {
  query_devices_error : option string;
  mixer_init_error : option string;
  instructions_confirmed : bool;
  trigger_received : option Q;
  t_experiment_start : Q;
  t_initial_rest : Q;
  initial_rest_polls : list (list pg_event);
  trials : list (stimulus * trial_env);
  t_experiment_end : Q;
  t_final_rest : Q;
  final_rest_polls : list (list pg_event);
}.

Definition initialize_audio (st : task) (env : session_env) : task :=
  match query_devices_error env with
  | None => set_audio st true None
  | Some e => set_audio st false (Some e)
  end.

Definition initialize_playback (st : task) (env : session_env) : task :=
  match mixer_init_error env with
  | None => set_playback st true None
  | Some e => set_playback st false (Some e)
  end.

(** The loop [for trial_idx, trial in enumerate(trials)]: the state, the
    rows of the completed trials, [interrupted] and [last_trial_idx]. *)
Fixpoint run_trials `{Formatting} (st : task) (trial_idx : Z)
    (todo : list (stimulus * trial_env)) (trial_data : list trial_info)
    : task * list trial_info * bool * Z :=
  match todo with
  | [] => (st, trial_data, false, (trial_idx - 1)%Z)
  | (s, env) :: todo' =>
      match run_trial st trial_idx s env with
      | (st, (None, _, _)) => (st, trial_data, true, trial_idx)
      | (st, (Some result, _, _)) =>
          run_trials st (trial_idx + 1) todo' (trial_data ++ [result])
      end
  end.

(** The result of [run_task]: the final state, the value returned, and the
    rows of the detailed log file if one was written. *)
Record session_result := {
  final_state : task;
  completed : bool;
  persisted_log : option (list log_row);
}.

Definition run_task `{Formatting} `{DataFrame} (st : task) (env : session_env)
    : session_result :=
  let st := initialize_audio st env in
  let st := initialize_playback st env in
  if negb (instructions_confirmed env) then
    {| final_state := st; completed := false; persisted_log := None |}
  else
    match trigger_received env with
    | None =>
        {| final_state := set_trigger st None; completed := false;
           persisted_log := None |}
    | Some trigger =>
        let st := set_trigger st (Some trigger) in
        let st :=
          log_append st
            (mk_event experiment_start 0 (t_experiment_start env - trigger)
               (Some 0) (t_experiment_start env) []) in
        let st :=
          log_append st
            (mk_event initial_long_rest 0 (t_initial_rest env - trigger)
               (Some 10) (t_initial_rest env) []) in
        if negb (show_fixation (initial_rest_polls env)) then
          {| final_state := st; completed := false;
             persisted_log := save_detailed_log st true |}
        else
          let '(st, trial_data, interrupted, last_trial_idx) :=
            run_trials st 0 (trials env) [] in
          let st :=
            log_append st
              (mk_event experiment_end (last_trial_idx + 1)
                 (t_experiment_end env - trigger) (Some 0)
                 (t_experiment_end env)
                 [("interrupted", VBool interrupted);
                  ("completed_trials",
                   VFloat (Fin (inject_Z (Z.of_nat (length trial_data)))))]) in
          let st :=
            log_append st
              (mk_event final_long_rest (last_trial_idx + 1)
                 (t_final_rest env - trigger) (Some 10) (t_final_rest env)
                 []) in
          {| final_state := st; completed := negb interrupted;
             persisted_log := save_detailed_log st interrupted |}
    end.

(** ** Statements about the primary detection *)

(** Frame [k] of the energy array exists and strictly exceeds the
    threshold. *)
Definition frame_above (energy_db : list Q) (threshold : Q) (k : Z) : Prop :=
  (0 <= k)%Z /\
  exists e, energy_db !! Z.to_nat k = Some e /\ threshold < e.

(** [m] consecutive frames starting at [i] fit within the array and all
    exceed the threshold. *)
Definition run_at (energy_db : list Q) (threshold : Q) (m i : Z) : Prop :=
  (i + m <= Z.of_nat (length energy_db))%Z /\
  forall k, (i <= k < i + m)%Z -> frame_above energy_db threshold k.

(** [i] is the first index at or after [s] where such a run starts. *)
Definition first_run (energy_db : list Q) (threshold : Q) (m s i : Z)
    : Prop :=
  (s <= i)%Z /\ run_at energy_db threshold m i /\
  forall j, (s <= j)%Z -> run_at energy_db threshold m j -> (i <= j)%Z.

(** The primary detection as specified: the onset is the centre of the
    frame at the first run of [min_frames] frames above the threshold at or
    after the search start, and there is no onset exactly when no such run
    exists. *)
Definition primary_detection_spec (energy_db : list Q)
    (sample_rate : positive) (frame_length : Z) (start_ms threshold : Q)
    (m : Z) : Prop :=
  let s := start_index energy_db sample_rate start_ms in
  match detect_onset_after energy_db sample_rate frame_length start_ms
          threshold m with
  | Some t =>
      exists i, first_run energy_db threshold m s i /\
                t = frame_centre_ms sample_rate frame_length i
  | None => forall i, (s <= i)%Z -> ~ run_at energy_db threshold m i
  end.

(** A run on the boolean array [above]. *)
Definition bool_run (above : list bool) (m : Z) (i : nat) : Prop :=
  (Z.of_nat i + m <= Z.of_nat (length above))%Z /\
  forall k, (Z.of_nat i <= Z.of_nat k < Z.of_nat i + m)%Z ->
            above !! k = Some true.

(** ** Instances on which the statements can be evaluated *)

(** The integer part of the decimal logarithm, exact on the powers of ten:
    [fuel] bounds the number of decades. *)
Fixpoint decades (fuel : nat) (q : Q) : Z :=
  match fuel with
  | O => 0%Z
  | S fuel' =>
      if Py.ltb q 1 then (decades fuel' (q * 10) - 1)%Z
      else if Py.ltb q 10 then 0%Z
      else (decades fuel' (q / 10) + 1)%Z
  end.

Definition floor_log10 (q : Q) : Q := inject_Z (decades 64 q).

(** A library for plain ASCII tables: text is left as it is, a path is
    joined with a slash, no string is a number, and the logarithm is rounded
    down to an integer. *)
Definition plain_library : Library :=
  {| np_log10 := floor_log10;
     py_str := fun c => match c with VStr s => s | _ => "" end;
     py_str_strip := fun s => s;
     py_str_lower := fun s => s;
     strip_accents := fun s => s;
     os_path_join := fun dir name => dir +:+ "/" +:+ name;
     float_of_string := fun _ => None |}.

Definition plain_formatting : Formatting :=
  {| isalnum := fun _ => true;
     format_02d := fun _ => "00";
     format_d := fun _ => "0" |}.

(** A stable sort on the onset column, and one that sorts the reversed
    table, so that rows of equal onset come out in reverse order. *)
Definition stable_frame : DataFrame :=
  {| sort_values_by_onset := merge_sort onset_le |}.

Definition reversing_frame : DataFrame :=
  {| sort_values_by_onset := fun l => merge_sort onset_le (reverse l) |}.

(** ** Sample recordings and tables *)



(** Six silent samples. *)
Definition silent_fs : filesystem :=
  fun _ => Audio (Mono [0; 0; 0; 0; 0; 0]) 1000.


(** One-sample frames, two frames for an onset, a guard of 1 ms. *)
Definition short_options (threshold : Q) : options :=
  {| threshold_db := threshold; frame_ms := 1; min_frames := 2;
     guard_ms := 1 |}.

(** The record of a row, or the empty record when the analysis raises. *)
Definition record_of `{Library} (fs : filesystem) (o : options) (r : row)
    : row :=
  default ∅ (analyze_row fs "rec" o r).


(** ** Statements about a silent recording *)




(** ** Statements about the summary table *)




(** Two rows with their recording names. *)
Definition two_rows : list row :=
  [{["recording_file" := VStr "a.wav"]}; {["recording_file" := VStr "b.wav"]}].

(** A directory where [a.wav] cannot be decoded and nothing else exists. *)
Definition broken_fs : filesystem :=
  fun path =>
    if decide (path = "rec/a.wav") then Unreadable "bad header" else Absent.

(** ** Statements about the events of a trial *)

(** The number of [audio_playback_end] events in a list. *)
Definition playback_ends (l : list event) : nat :=
  length (filter (fun e => ev_type e = audio_playback_end) l).

(** An event of trial [trial_no] that neither opens nor closes the trial. *)
Definition inner_event (trial_no : Z) (e : event) : Prop :=
  ev_type e <> trial_start /\ ev_type e <> trial_end /\ ev_trial e = trial_no.

(** An inner event that is not the end of playback. *)
Definition plain_event (trial_no : Z) (e : event) : Prop :=
  inner_event trial_no e /\ ev_type e <> audio_playback_end.

(** [st'] is [st] with the events [new] appended to the log and the same
    trigger time. *)
Definition appends (st st' : task) (new : list event) : Prop :=
  detailed_log st' = detailed_log st ++ new /\
  trigger_time st' = trigger_time st.

(** ** Sample sessions *)

(** A trial in which the sound plays, stops during the window, and the
    recording is written; times in seconds after a trigger at 100. *)
Definition calm_trial : trial_env :=
  {| t_trial_start := 111;
     stim_file_exists := true;
     sound := SoundLoaded 1;
     rec_error := None;
     t_audio_start := 111;
     play := Channel;
     t_playback_start := 111;
     t_prompt_onset := 111;
     stimulus_ticks :=
       [{| tick_events := []; tick_busy := true; tick_time := 111 |};
        {| tick_events := [OTHER_EVENT]; tick_busy := false;
           tick_time := 112 |};
        {| tick_events := []; tick_busy := false; tick_time := 113 |}];
     write_error := None;
     t_audio_end := 117;
     t_playback_stop := 117;
     t_fixation_start := 117;
     fixation_polls := [[]; []];
     t_fixation_abort := 118;
     t_trial_end := 237 # 2 |}.

(** The same trial on a machine whose recording device refuses to start. *)
Definition deaf_trial : trial_env :=
  {| t_trial_start := 111;
     stim_file_exists := true;
     sound := SoundLoaded 1;
     rec_error := Some "device unavailable";
     t_audio_start := 111;
     play := Channel;
     t_playback_start := 111;
     t_prompt_onset := 111;
     stimulus_ticks :=
       [{| tick_events := []; tick_busy := true; tick_time := 111 |}];
     write_error := None;
     t_audio_end := 117;
     t_playback_stop := 117;
     t_fixation_start := 117;
     fixation_polls := [[]];
     t_fixation_abort := 118;
     t_trial_end := 237 # 2 |}.

Definition gato : stimulus :=
  {| spanish := "gato"; japanese := "neko"; word_id := 10 |}.

(** A task ready for its first trial: devices found, trigger at 100. *)
Definition ready_task : task :=
  set_trigger
    (set_playback (set_audio (new_task "001" "s1" "rec/001/s1") true None)
       true None)
    (Some 100).

(** A session of three trials, the second on the failing recorder. *)
Definition three_trials : session_env :=
  {| query_devices_error := None;
     mixer_init_error := None;
     instructions_confirmed := true;
     trigger_received := Some 100;
     t_experiment_start := 100;
     t_initial_rest := 100;
     initial_rest_polls := [[]];
     trials := [(gato, calm_trial); (gato, deaf_trial); (gato, calm_trial)];
     t_experiment_end := 140;
     t_final_rest := 140;
     final_rest_polls := [[]] |}.

(** ** Statements about the recording device *)

(** [st'] has the recording flag and the recorded calls of [sd.rec] of
    [st]. *)
Definition same_recorder (st st' : task) : Prop :=
  audio_available st' = audio_available st /\
  rec_attempts st' = rec_attempts st.

(** A call of [sd.rec] that raised is the last call, and the recording flag
    is down. *)
Definition sticky_failure (st : task) : Prop :=
  forall before n after,
    rec_attempts st = before ++ (n, false) :: after ->
    after = [] /\ audio_available st = false.

(** ** Statements about the saved timeline *)

(** The onset of a row in lowest terms, so that equal onsets are equal
    terms. *)
Definition onset_key (r : log_row) : Q := Qred (row_onset r).

(** The rows of [output] that share an onset stand in the order they have
    in [input]. *)
Definition stable_on (input output : list log_row) : Prop :=
  forall q : Q,
    filter (fun r => Qeq_bool (row_onset r) q = true) output
    = filter (fun r => Qeq_bool (row_onset r) q = true) input.

(** The claim on the saved timeline: sorted by onset, ties in emission
    order, and sorting it again changes nothing. *)
Definition timeline_spec `{DataFrame} (st : task) (interrupted : bool)
    : Prop :=
  forall rows,
    save_detailed_log st interrupted = Some rows ->
    Sorted onset_le rows /\
    stable_on (map (tag_row st interrupted) (detailed_log st)) rows /\
    sort_values_by_onset rows = rows.

(** A log of two events captured at the same instant. *)
Definition tied_task : task :=
  log_append
    (log_append ready_task (mk_event audio_playback_end 1 12 (Some 0) 112 []))
    (mk_event fixation_onset 1 12 (Some (3 # 2)) 112 []).

(** * Properties *)

(** ** Python primitives *)

Lemma ltb_lt (x y : Q) : Py.ltb x y = true <-> x < y.
Proof.
  unfold Py.ltb. rewrite Qlt_alt. destruct (x ?= y); split; congruence.
Qed.





(** ** Slices *)

Lemma slice_inside {A} (l : list A) (i m : nat) :
  (i + m <= length l)%nat ->
  Py.slice l (Z.of_nat i) (Z.of_nat i + Z.of_nat m) = take m (drop i l).
Proof.
  intros Hfit. unfold Py.slice, Py.slice_bound.
  destruct (Z.ltb_spec (Z.of_nat i) 0); [lia|].
  destruct (Z.ltb_spec (Z.of_nat i + Z.of_nat m) 0); [lia|].
  rewrite !Z.min_l by lia.
  replace (Z.to_nat (Z.of_nat i + Z.of_nat m - Z.of_nat i)) with m by lia.
  by rewrite Nat2Z.id.
Qed.

Lemma slice_from_drop {A} (l : list A) (s : Z) :
  (0 <= s <= Z.of_nat (length l))%Z ->
  Py.slice_from l s = drop (Z.to_nat s) l.
Proof.
  intros Hs. unfold Py.slice_from, Py.slice, Py.slice_bound.
  destruct (Z.ltb_spec s 0); [lia|].
  destruct (Z.ltb_spec (Z.of_nat (length l)) 0); [lia|].
  rewrite Z.min_l by lia. rewrite Z.min_l by lia.
  apply take_ge. rewrite length_drop. lia.
Qed.

Lemma np_all_take_drop (above : list bool) (i m : nat) :
  (i + m <= length above)%nat ->
  Py.np_all (take m (drop i above)) = true <->
  forall k, (i <= k < i + m)%nat -> above !! k = Some true.
Proof.
  intros Hfit. unfold Py.np_all.
  rewrite <- Is_true_true, forallb_True, Forall_lookup. split.
  - intros Hall k Hk.
    destruct (lookup_lt_is_Some_2 above k) as [b Hb]; [lia|].
    specialize (Hall (k - i)%nat b). rewrite lookup_take_lt, lookup_drop in Hall by lia.
    replace (i + (k - i))%nat with k in Hall by lia.
    specialize (Hall Hb). destruct b; [done|]. by destruct Hall.
  - intros Hall j b Hj. apply lookup_take_Some in Hj as [Hj Hlt].
    rewrite lookup_drop in Hj. rewrite Hall in Hj by lia. by simplify_eq.
Qed.

(** ** The scan of [detect_onset_after] *)

Lemma onset_scan_found (above : list bool) (m : Z) (todo i r : nat) :
  (1 <= m)%Z ->
  onset_scan above m todo i = Some r ->
  (i <= r)%nat /\ bool_run above m r /\
  forall j, (i <= j < r)%nat -> ~ bool_run above m j.
Proof.
  intros Hm. revert i. induction todo as [|todo IH]; intros i; simpl; [done|].
  assert (Hskip : above !! i <> Some true ->
                  onset_scan above m todo (S i) = Some r ->
                  (i <= r)%nat /\ bool_run above m r /\
                  forall j, (i <= j < r)%nat -> ~ bool_run above m j).
  { intros Hi Hrec. destruct (IH _ Hrec) as (Hle & Hrun & Hmin).
    split; [lia|]. split; [done|]. intros j Hj [Hfit Hall].
    destruct (decide (j = i)) as [->|Hne].
    - apply Hi, Hall. lia.
    - apply (Hmin j); [lia|]. by split. }
  destruct (above !! i) as [[|]|] eqn:Hi; try (apply Hskip; congruence).
  destruct (Z.gtb_spec (Z.of_nat i + m) (Z.of_nat (length above))); [done|].
  destruct (Py.np_all _) eqn:Hall.
  - intros [= <-]. split; [lia|]. split; [|intros; lia].
    split; [lia|]. intros k Hk.
    replace m with (Z.of_nat (Z.to_nat m)) in Hall, Hk by lia.
    rewrite slice_inside in Hall by lia.
    eapply np_all_take_drop; [|exact Hall|]; lia.
  - intros Hrec. destruct (IH _ Hrec) as (Hle & Hrun & Hmin).
    split; [lia|]. split; [done|]. intros j Hj [Hfit Hrunj].
    destruct (decide (j = i)) as [->|Hne].
    + apply not_true_iff_false in Hall. apply Hall.
      replace m with (Z.of_nat (Z.to_nat m)) by lia.
      rewrite slice_inside by lia. apply np_all_take_drop; [lia|].
      intros k Hk. apply Hrunj. lia.
    + apply (Hmin j); [lia|]. by split.
Qed.

Lemma onset_scan_none (above : list bool) (m : Z) (todo i : nat) :
  (1 <= m)%Z ->
  (i + todo = length above)%nat ->
  onset_scan above m todo i = None ->
  forall j, (i <= j)%nat -> ~ bool_run above m j.
Proof.
  intros Hm. revert i. induction todo as [|todo IH]; intros i Hlen; simpl.
  - intros _ j Hj [Hfit _]. lia.
  - assert (Hskip : above !! i <> Some true ->
                    onset_scan above m todo (S i) = None ->
                    forall j, (i <= j)%nat -> ~ bool_run above m j).
    { intros Hi Hrec j Hj [Hfit Hall].
      destruct (decide (j = i)) as [->|Hne].
      - apply Hi, Hall. lia.
      - apply (IH (S i)) with (j := j); [lia|done|lia|]. by split. }
    destruct (above !! i) as [[|]|] eqn:Hi; try (apply Hskip; congruence).
    destruct (Z.gtb_spec (Z.of_nat i + m) (Z.of_nat (length above))).
    + intros _ j Hj [Hfit _]. lia.
    + destruct (Py.np_all _) eqn:Hall; [done|].
      intros Hrec j Hj [Hfit Hrunj].
      destruct (decide (j = i)) as [->|Hne].
      * apply not_true_iff_false in Hall. apply Hall.
        replace m with (Z.of_nat (Z.to_nat m)) by lia.
        rewrite slice_inside by lia. apply np_all_take_drop; [lia|].
        intros k Hk. apply Hrunj. lia.
      * apply (IH (S i)) with (j := j); [lia|done|lia|]. by split.
Qed.

Lemma start_index_range (energy_db : list Q) (sr : positive) (start_ms : Q) :
  (0 <= start_index energy_db sr start_ms <= Z.of_nat (length energy_db))%Z.
Proof. unfold start_index. lia. Qed.

Lemma above_lookup (energy_db : list Q) (thr : Q) (s k : nat) :
  map (fun e => Py.ltb thr e) (drop s energy_db) !! k = Some true <->
  exists e, energy_db !! (s + k)%nat = Some e /\ thr < e.
Proof.
  change (map (fun e => Py.ltb thr e) (drop s energy_db))
    with ((fun e => Py.ltb thr e) <$> drop s energy_db).
  rewrite list_lookup_fmap, lookup_drop. split.
  - destruct (energy_db !! (s + k)%nat) as [e|]; simpl; [|done].
    intros [= He]. exists e. split; [done|]. by apply ltb_lt.
  - intros (e & -> & He). simpl. f_equal. by apply ltb_lt.
Qed.

Lemma bool_run_iff (energy_db : list Q) (thr : Q) (m : Z) (s i : nat) :
  (s <= length energy_db)%nat ->
  bool_run (map (fun e => Py.ltb thr e) (drop s energy_db)) m i <->
  run_at energy_db thr m (Z.of_nat (s + i)).
Proof.
  intros Hs. unfold bool_run, run_at, frame_above.
  rewrite length_map, length_drop. split.
  - intros [Hfit Hall]. split; [lia|]. intros k Hk. split; [lia|].
    specialize (Hall (Z.to_nat k - s)%nat). rewrite above_lookup in Hall.
    replace (s + (Z.to_nat k - s))%nat with (Z.to_nat k) in Hall by lia.
    apply Hall. lia.
  - intros [Hfit Hall]. split; [lia|]. intros k Hk.
    apply above_lookup. destruct (Hall (Z.of_nat (s + k))) as [_ He]; [lia|].
    by rewrite Nat2Z.id in He.
Qed.

(** C1 (as amended): for every energy array, sample rate, frame length,
    search start, threshold and [min_frames >= 1], [detect_onset_after]
    returns the centre of the frame at the first index, at or after the
    search start, where [min_frames] consecutive frames fit in the array and
    all strictly exceed the threshold; it returns nothing exactly when no
    such run exists. *)
Theorem detect_onset_after_first_run (energy_db : list Q) (sr : positive)
    (frame_length : Z) (start_ms thr : Q) (m : Z) :
  (1 <= m)%Z ->
  primary_detection_spec energy_db sr frame_length start_ms thr m.
Proof.
  intros Hm. unfold primary_detection_spec, detect_onset_after.
  pose proof (start_index_range energy_db sr start_ms) as Hs.
  set (s := start_index energy_db sr start_ms) in *.
  rewrite slice_from_drop by done.
  set (above := map _ _).
  assert (Hrun : forall i, bool_run above m i <->
                           run_at energy_db thr m (s + Z.of_nat i)).
  { intros i. unfold above. rewrite bool_run_iff by lia.
    by replace (Z.of_nat (Z.to_nat s + i)) with (s + Z.of_nat i)%Z by lia. }
  destruct (onset_scan above m (length above) 0) as [r|] eqn:Hscan.
  - destruct (onset_scan_found _ _ _ _ _ Hm Hscan) as (_ & Hr & Hmin).
    exists (s + Z.of_nat r)%Z. split; [|done].
    split; [lia|]. split; [by apply Hrun|].
    intros j Hj Hrj. destruct (Z.le_gt_cases (s + Z.of_nat r) j); [done|].
    exfalso. apply (Hmin (Z.to_nat (j - s))); [lia|].
    apply Hrun. by replace (s + Z.of_nat (Z.to_nat (j - s)))%Z with j by lia.
  - intros i Hi Hri.
    apply (onset_scan_none _ _ _ _ Hm (Nat.add_0_l _) Hscan (Z.to_nat (i - s)));
      [lia|].
    apply Hrun. by replace (s + Z.of_nat (Z.to_nat (i - s)))%Z with i by lia.
Qed.

Lemma detect_onset_after_first_run_witness :
  (1 <= 2)%Z /\
  primary_detection_spec [-50; -30; -20; -50] 1000 10 0 (-40) 2.
Proof.
  split; [lia|]. apply detect_onset_after_first_run. lia.
Defined.

(** With [min_frames = 0] every index starts a run of no frames, so the
    first run is at the search start, here index 0; the scan however skips
    the frame that is not above the threshold and reports index 1. *)
Lemma detect_onset_after_zero_frames :
  ~ primary_detection_spec [-50; -30] 1000 1 0 (-40) 0.
Proof.
  unfold primary_detection_spec.
  change (detect_onset_after [-50; -30] 1000 1 0 (-40) 0)
    with (Some (frame_centre_ms 1000 1 1)).
  change (start_index [-50; -30] 1000 0) with 0%Z.
  intros (i & (Hlo & _ & Hmin) & Ht).
  assert (i = 0%Z) as ->.
  { apply Z.le_antisymm; [|done]. apply Hmin; [done|].
    split; [simpl; lia|]. intros k Hk. lia. }
  vm_compute in Ht. discriminate.
Qed.

Example detect_onset_default_like :
  option_map Qred
    (detect_onset_after [-60; -60; -30; -20; -25; -30; -60] 1000 10 0 (-40) 4)
  = Some 7.
Proof. vm_compute. reflexivity. Qed.

(** ** The onset never precedes the search start *)






(** ** The record of one row *)

(** Lookups in a record built by successive assignments. *)
Tactic Notation "row_lookup" :=
  repeat first
    [ rewrite lookup_insert_eq
    | rewrite lookup_insert_ne by done ].
Tactic Notation "row_lookup" "in" hyp(H) :=
  repeat first
    [ rewrite lookup_insert_eq in H
    | rewrite lookup_insert_ne in H by done ].









(** An option that holds a value is that value, whatever the default. *)
Lemma default_Some {A} (d : A) (o : option A) :
  is_Some o -> o = Some (default d o).
Proof. by intros [x ->]. Qed.


(** ** The fallback pass *)




Example fallback_finds_faint_burst :
  option_map Qred
    (onset_ms
       (detect_with_fallback
          [-120; -120; -120; -120; -40; -40; -40; -40; -40; -40] 1000 1 0
          (short_options (-40))))
  = Some (9 # 2).
Proof. vm_compute. reflexivity. Qed.

(** ** Silence *)











(** ** Detection on a quiet array *)










Example silence_record_status :
  record_of (H := plain_library) silent_fs (short_options (-40)) ∅ !! "status"
  = Some (VStr "no_speech_detected").
Proof. vm_compute. reflexivity. Qed.

Example silence_low_threshold_status :
  record_of (H := plain_library) silent_fs (short_options (-130)) ∅ !! "status"
  = Some (VStr "ok").
Proof. vm_compute. reflexivity. Qed.

(** ** The batch *)

Lemma analyze_loop_mapM `{Library} (fs : filesystem) (dir : string)
    (o : options) (rows records : list row) :
  analyze_loop fs dir o rows records
  = (fun out => records ++ out) <$> mapM (analyze_row fs dir o) rows.
Proof.
  revert records. induction rows as [|r rows IH]; intros records; simpl.
  - by rewrite app_nil_r.
  - destruct (analyze_row fs dir o r) as [res|]; simpl; [|done].
    rewrite IH. destruct (mapM _ rows); simpl; [|done].
    by rewrite <- app_assoc.
Qed.

Lemma analyze_mapM `{Library} (fs : filesystem) (dir : string) (o : options)
    (df : list row) :
  analyze fs dir o df = mapM (analyze_row fs dir o) df.
Proof.
  unfold analyze. rewrite analyze_loop_mapM.
  by destruct (mapM _ df).
Qed.




Example broken_batch_statuses :
  option_map (map (fun res : row => res !! "status"))
    (analyze (H := plain_library) broken_fs "rec" (short_options (-40))
       two_rows)
  = Some [Some (VStr "read_error"); Some (VStr "missing")].
Proof. vm_compute. reflexivity. Qed.

(** ** The summary table *)






(** The summary exists as soon as no row raises. *)
Lemma summary_exists `{Library} (fs : filesystem) (dir : string)
    (o : options) (df : list row) :
  Forall (fun r => is_Some (analyze_row fs dir o r)) df ->
  is_Some (analyze fs dir o df).
Proof.
  intros Hrows. rewrite analyze_mapM. by apply mapM_is_Some_2.
Qed.



(** ** The events of one trial *)

Lemma appends_refl (st : task) : appends st st [].
Proof. split; [by rewrite app_nil_r|done]. Qed.

Lemma appends_trans (st1 st2 st3 : task) (n1 n2 : list event) :
  appends st1 st2 n1 -> appends st2 st3 n2 -> appends st1 st3 (n1 ++ n2).
Proof.
  intros [Hl1 Ht1] [Hl2 Ht2]. split; [|congruence].
  by rewrite Hl2, Hl1, app_assoc.
Qed.

Lemma appends_same_log (st st' : task) :
  detailed_log st' = detailed_log st ->
  trigger_time st' = trigger_time st ->
  appends st st' [].
Proof. intros Hl Ht. split; [by rewrite app_nil_r|done]. Qed.

Lemma appends_log_append (st : task) (e : event) :
  appends st (log_append st e) [e].
Proof. by split. Qed.

Lemma playback_ends_app (l1 l2 : list event) :
  playback_ends (l1 ++ l2) = (playback_ends l1 + playback_ends l2)%nat.
Proof. unfold playback_ends. by rewrite filter_app, length_app. Qed.

Lemma playback_ends_plain (trial_no : Z) (l : list event) :
  Forall (plain_event trial_no) l -> playback_ends l = 0%nat.
Proof.
  unfold playback_ends. induction 1 as [|e l [_ He] _ IH]; [done|].
  by rewrite filter_cons_False.
Qed.

Lemma plain_inner (trial_no : Z) (l : list event) :
  Forall (plain_event trial_no) l -> Forall (inner_event trial_no) l.
Proof. intros Hl. eapply Forall_impl; [exact Hl|]. by intros e [He _]. Qed.

Lemma start_recording_appends `{Formatting} (st st' : task) (trial_idx : Z)
    (s : stimulus) (env : trial_env) (name : option string) :
  start_recording st trial_idx s env = (st', name) ->
  exists new, appends st st' new /\ Forall (plain_event (trial_idx + 1)) new.
Proof.
  unfold start_recording. destruct (audio_available st).
  - destruct (rec_error env); intros [= <- <-].
    + exists []. split; [by apply appends_same_log|done].
    + eexists [_]. split; [by split|]. repeat constructor; done.
  - intros [= <- <-]. exists []. split; [by apply appends_same_log|done].
Qed.

Lemma start_playback_appends (st st' : task) (trial_no : Z) (env : trial_env)
    (snd : option Q) (file : option string) (channel : bool)
    (started : option Q) :
  start_playback st trial_no env snd file = (st', channel, started) ->
  exists new, appends st st' new /\ Forall (plain_event trial_no) new.
Proof.
  unfold start_playback. destruct snd as [len|].
  - destruct (play env); intros [= <- <- <-].
    + exists []. split; [by apply appends_same_log|done].
    + exists []. split; [by apply appends_same_log|done].
    + eexists [_]. split; [by split|]. repeat constructor; done.
  - intros [= <- <- <-]. exists []. split; [by apply appends_same_log|done].
Qed.

Lemma finish_recording_appends (st st' : task) (trial_no : Z)
    (env : trial_env) (name name' : option string) :
  finish_recording st trial_no env name = (st', name') ->
  exists new, appends st st' new /\ Forall (plain_event trial_no) new.
Proof.
  unfold finish_recording. destruct name as [n|].
  - destruct (write_error env); intros [= <- <-].
    + exists []. split; [by apply appends_same_log|done].
    + eexists [_]. split; [by split|]. repeat constructor; done.
  - intros [= <- <-]. exists []. split; [by apply appends_same_log|done].
Qed.

(** The stimulus window logs the end of playback at most once, and only
    while [playback_end_logged] is false; when it logs it, it sets
    [playback_end_time]. *)
Lemma stimulus_window_appends (ticks : list tick) (st st' : task)
    (trial_no : Z) (channel : bool) (file : option string)
    (ended : option Q) (logged : bool) (res : window_result) :
  stimulus_window ticks st trial_no channel file ended logged = (st', res) ->
  exists new,
    appends st st' new /\
    Forall (fun e => inner_event trial_no e) new /\
    (playback_ends new <= 1)%nat /\
    (logged = true -> playback_ends new = 0%nat) /\
    forall ended' logged',
      res = WindowElapsed ended' logged' ->
      ended' = None -> ended = None /\ playback_ends new = 0%nat.
Proof.
  revert st ended logged.
  induction ticks as [|tk ticks IH]; intros st ended logged; simpl.
  - intros [= <- <-]. exists []. split; [apply appends_refl|].
    split; [done|]. split; [cbv; lia|]. split; [done|].
    by intros ended' logged' [= <- <-] ->.
  - destruct (existsb is_cancel (tick_events tk)).
    { intros [= <- <-]. exists []. split; [apply appends_refl|].
      split; [done|]. split; [cbv; lia|]. split; [done|]. done. }
    destruct (channel && negb logged && negb (tick_busy tk)) eqn:Hend.
    + intros Hrec. destruct (IH _ _ _ Hrec)
        as (new & Happ & Hinner & _ & Hlogged & Hres).
      exists (playback_end_event st trial_no file (tick_time tk) :: new).
      split; [exact (appends_trans _ _ _ [_] _ (appends_log_append _ _) Happ)|].
      split; [constructor; [by repeat split|done]|].
      assert (Hone : playback_ends
                       (playback_end_event st trial_no file (tick_time tk)
                        :: new) = 1%nat).
      { change (?e :: new) with ([e] ++ new).
        rewrite playback_ends_app, (Hlogged eq_refl). reflexivity. }
      rewrite Hone. split; [lia|]. split.
      * intros ->. by rewrite andb_false_r in Hend.
      * intros ended' logged' Heq Hnone.
        by destruct (Hres _ _ Heq Hnone).
    + intros Hrec. destruct (IH _ _ _ Hrec)
        as (new & Happ & Hinner & Hle & Hlogged & Hres).
      by exists new.
Qed.

Lemma force_playback_end_appends (st : task) (trial_no : Z) (env : trial_env)
    (file : option string) (started ended : option Q) :
  exists new,
    appends st (force_playback_end st trial_no env file started ended) new /\
    Forall (fun e => inner_event trial_no e) new /\
    (playback_ends new <= 1)%nat /\
    (ended <> None -> playback_ends new = 0%nat).
Proof.
  unfold force_playback_end. destruct (time_is_set started).
  - destruct ended.
    + exists []. split; [apply appends_refl|].
      split; [done|]. split; [cbv; lia|]. done.
    + eexists [_]. split; [by split|].
      split; [by repeat constructor|]. split; [cbv; lia|]. done.
  - exists []. split; [apply appends_refl|].
    split; [done|]. split; [cbv; lia|]. done.
Qed.

Lemma relative_time_mono (trigger : option Q) (t0 t1 : Q) :
  t0 <= t1 -> relative_time trigger t0 <= relative_time trigger t1.
Proof.
  intros Hle. unfold relative_time. destruct trigger as [tr|]; [|lra].
  destruct (Qeq_bool tr 0); lra.
Qed.

(** The log after a trial: the [trial_start] entry, the inner events of
    the trial with at most one end of playback, and the [trial_end] entry
    when the trial completes.  The trigger time and the events logged before
    the trial are as they were. *)
Lemma run_trial_shape `{Formatting} (st st' : task) (trial_idx : Z)
    (s : stimulus) (env : trial_env) (res : option trial_info) (t0 t1 : Q) :
  run_trial st trial_idx s env = (st', (res, t0, t1)) ->
  trigger_time st' = trigger_time st /\
  exists e_start inner closing,
    detailed_log st' = detailed_log st ++ e_start :: inner ++ closing /\
    ev_type e_start = trial_start /\ ev_trial e_start = (trial_idx + 1)%Z /\
    onset e_start = relative_time (trigger_time st) (t_trial_start env) /\
    Forall (inner_event (trial_idx + 1)) inner /\
    (playback_ends inner <= 1)%nat /\
    match res with
    | Some _ =>
        exists e_end,
          closing = [e_end] /\ ev_type e_end = trial_end /\
          ev_trial e_end = (trial_idx + 1)%Z /\
          onset e_end = relative_time (trigger_time st) (t_trial_end env)
    | None => closing = []
    end.
Proof.
  unfold run_trial, begin_trial.
  set (trial_no := (trial_idx + 1)%Z).
  set (e0 := mk_event trial_start trial_no _ _ _ _).
  pose proof (appends_log_append st e0) as H0.
  set (st0 := log_append st e0) in *.
  set (file := match load_sound st0 env with
               | Some _ => Some (spanish s +:+ ".mp3")
               | None => None
               end).
  destruct (start_recording st0 trial_idx s env) as [st1 name] eqn:H1.
  apply start_recording_appends in H1 as (n1 & H1 & P1).
  destruct (start_playback st1 trial_no env (load_sound st0 env) file)
    as [[st2 channel] started] eqn:H2.
  apply start_playback_appends in H2 as (n2 & H2 & P2).
  set (e3 := mk_event prompt_onset trial_no _ _ _ _).
  pose proof (appends_log_append st2 e3) as H3.
  set (st3 := log_append st2 e3) in *.
  destruct (stimulus_window (stimulus_ticks env) st3 trial_no channel file
              None false) as [st4 wres] eqn:H4.
  apply stimulus_window_appends in H4 as (n4 & H4 & P4 & C4 & _ & R4).
  pose proof (appends_trans _ _ _ _ _
                (appends_trans _ _ _ _ _
                   (appends_trans _ _ _ _ _ H1 H2) H3) H4) as Hmid.
  assert (Pmid : Forall (inner_event trial_no) ((n1 ++ n2) ++ [e3]) /\
                 playback_ends ((n1 ++ n2) ++ [e3]) = 0%nat).
  { assert (Forall (plain_event trial_no) ((n1 ++ n2) ++ [e3])) as Hp.
    { repeat apply Forall_app_2; try done. by repeat constructor. }
    split; [by apply plain_inner|by eapply playback_ends_plain]. }
  destruct Pmid as [Pmid Cmid].
  destruct wres as [t_return|ended logged].
  - intros [= <- <- <- <-].
    pose proof (appends_trans _ _ _ _ _ H0 Hmid) as [Hlog Htrig].
    split; [done|].
    exists e0, (((n1 ++ n2) ++ [e3]) ++ n4), [].
    rewrite app_nil_r. split; [exact Hlog|].
    repeat split; try done.
    + by apply Forall_app_2.
    + rewrite playback_ends_app, Cmid. lia.
  - destruct (finish_recording st4 trial_no env name) as [st5 name'] eqn:H5.
    apply finish_recording_appends in H5 as (n5 & H5 & P5).
    destruct (force_playback_end_appends st5 trial_no env file started ended)
      as (n6 & H6 & P6 & C6 & R6).
    set (st6 := force_playback_end st5 trial_no env file started ended) in *.
    set (e7 := mk_event fixation_onset trial_no _ _ _ _).
    pose proof (appends_log_append st6 e7) as H7.
    set (st7 := log_append st6 e7) in *.
    pose proof (appends_trans _ _ _ _ _
                  (appends_trans _ _ _ _ _
                     (appends_trans _ _ _ _ _ Hmid H5) H6) H7) as Hinner.
    set (inner := ((((((n1 ++ n2) ++ [e3]) ++ n4) ++ n5) ++ n6) ++ [e7])) in *.
    assert (Pinner : Forall (inner_event trial_no) inner).
    { unfold inner.
      repeat apply Forall_app_2; try done; try (by apply plain_inner).
      all: by repeat constructor. }
    assert (Cinner : (playback_ends inner <= 1)%nat).
    { unfold inner.
      rewrite 4!playback_ends_app, Cmid.
      rewrite (playback_ends_plain trial_no n5 P5).
      assert (playback_ends [e7] = 0%nat) as -> by reflexivity.
      destruct ended as [t|].
      - rewrite R6 by done. lia.
      - destruct (R4 None logged eq_refl eq_refl) as [_ ->]. lia. }
    pose proof (appends_trans _ _ _ _ _ H0 Hinner) as [Hlog Htrig].
    simpl in Hlog.
    destruct (show_fixation (fixation_polls env)).
    + intros [= <- <- <- <-]. split; [done|].
      exists (set_duration (t_trial_end env - t_trial_start env) e0), inner.
      eexists [_]. split.
      { simpl. rewrite Hlog.
        replace (length (detailed_log st))
          with (length (detailed_log st) + 0)%nat by lia.
        rewrite alter_app_r. simpl. by rewrite <- app_assoc. }
      split; [done|]. split; [done|]. split; [done|]. split; [done|].
      split; [done|]. eexists. split; [done|]. split; [done|].
      split; [done|]. rewrite <- Htrig. reflexivity.
    + intros [= <- <- <- <-]. split; [done|].
      exists e0, inner, []. rewrite app_nil_r. by repeat split.
Qed.

(** C6: the events a trial appends to the detailed log, whether it ends or
    is cancelled, are events of that trial and hold at most one
    [audio_playback_end], be it logged by the polling loop of the stimulus
    window or forced once the window has elapsed. *)
Theorem at_most_one_playback_end `{Formatting} (st : task) (trial_idx : Z)
    (s : stimulus) (env : trial_env) :
  exists new,
    detailed_log (run_trial st trial_idx s env).1 = detailed_log st ++ new /\
    Forall (fun e => ev_trial e = (trial_idx + 1)%Z) new /\
    (playback_ends new <= 1)%nat.
Proof.
  destruct (run_trial st trial_idx s env) as [st' [[res t0] t1]] eqn:Hrun.
  apply run_trial_shape in Hrun
    as (_ & e_start & inner & closing & Hlog & Htype & Htrial & _ & Hinner
        & Hcount & Hclosing).
  exists (e_start :: inner ++ closing). split; [done|]. split.
  - constructor; [done|]. apply Forall_app_2.
    + eapply Forall_impl; [exact Hinner|]. by intros e (_ & _ & He).
    + destruct res; [|by subst].
      destruct Hclosing as (e_end & -> & _ & He & _). by repeat constructor.
  - change (e_start :: inner ++ closing) with ([e_start] ++ inner ++ closing).
    rewrite !playback_ends_app.
    assert (playback_ends [e_start] = 0%nat) as ->.
    { unfold playback_ends. rewrite filter_cons_False; [done|]. by rewrite Htype. }
    assert (playback_ends closing = 0%nat) as ->.
    { destruct res; [|by subst].
      destruct Hclosing as (e_end & -> & He & _).
      unfold playback_ends. rewrite filter_cons_False; [done|]. by rewrite He. }
    lia.
Qed.

(** C8: a trial that completes appends a [trial_start] and a [trial_end]
    event, in that order and with only inner events between them; when the
    clock did not go back between the two captures, the onset of the
    [trial_end] event is at least that of the [trial_start] event.  With a
    trigger reference both onsets are the capture minus the trigger time,
    without one both are 0. *)
Theorem trial_end_after_trial_start `{Formatting} (st st' : task)
    (trial_idx : Z) (s : stimulus) (env : trial_env) (info : trial_info)
    (t0 t1 : Q) :
  run_trial st trial_idx s env = (st', (Some info, t0, t1)) ->
  t_trial_start env <= t_trial_end env ->
  exists e_start inner e_end,
    detailed_log st' = detailed_log st ++ e_start :: inner ++ [e_end] /\
    ev_type e_start = trial_start /\ ev_type e_end = trial_end /\
    ev_trial e_start = (trial_idx + 1)%Z /\
    ev_trial e_end = (trial_idx + 1)%Z /\
    Forall (inner_event (trial_idx + 1)) inner /\
    onset e_start = relative_time (trigger_time st) (t_trial_start env) /\
    onset e_end = relative_time (trigger_time st) (t_trial_end env) /\
    onset e_start <= onset e_end.
Proof.
  intros Hrun Hclock.
  apply run_trial_shape in Hrun
    as (_ & e_start & inner & closing & Hlog & Htype & Htrial & Honset
        & Hinner & _ & e_end & -> & Hend & Htrial' & Honset').
  exists e_start, inner, e_end. repeat split; try done.
  rewrite Honset, Honset'. by apply relative_time_mono.
Qed.

Lemma trial_end_after_trial_start_witness :
  let out := run_trial (H := plain_formatting) ready_task 0 gato calm_trial in
  exists e_start inner e_end,
    detailed_log out.1 = detailed_log ready_task ++ e_start :: inner ++ [e_end]
    /\ ev_type e_start = trial_start /\ ev_type e_end = trial_end /\
    ev_trial e_start = (0 + 1)%Z /\ ev_trial e_end = (0 + 1)%Z /\
    Forall (inner_event (0 + 1)) inner /\
    onset e_start = relative_time (trigger_time ready_task) 111 /\
    onset e_end = relative_time (trigger_time ready_task) (237 # 2) /\
    onset e_start <= onset e_end.
Proof.
  apply (trial_end_after_trial_start (H := plain_formatting) ready_task _ 0
           gato calm_trial
           (default
              {| ti_trial := 0; ti_spanish_word := ""; ti_japanese_target := "";
                 ti_word_id := 0; ti_recording_file := None;
                 ti_trial_start_time_abs := 0; ti_trial_end_time_abs := 0;
                 ti_trial_duration := 0; ti_playback_audio_file := None;
                 ti_playback_duration := None |}
              (run_trial (H := plain_formatting) ready_task 0 gato
                 calm_trial).2.1.1)
           111 (237 # 2)).
  - vm_compute. reflexivity.
  - vm_compute. discriminate.
Defined.

Example calm_trial_events :
  map ev_type
    (detailed_log
       (run_trial (H := plain_formatting) ready_task 0 gato calm_trial).1)
  = [trial_start; audio_recording_start; audio_playback_start; prompt_onset;
     audio_playback_end; audio_recording_end; fixation_onset; trial_end].
Proof. vm_compute. reflexivity. Qed.

(** ** The recording device over a session *)

Lemma same_recorder_trans (st1 st2 st3 : task) :
  same_recorder st1 st2 -> same_recorder st2 st3 -> same_recorder st1 st3.
Proof. intros [Ha1 Hr1] [Ha2 Hr2]. split; congruence. Qed.

Lemma stimulus_window_recorder (ticks : list tick) (st st' : task)
    (trial_no : Z) (channel : bool) (file : option string)
    (ended : option Q) (logged : bool) (res : window_result) :
  stimulus_window ticks st trial_no channel file ended logged = (st', res) ->
  same_recorder st st'.
Proof.
  revert st ended logged.
  induction ticks as [|tk ticks IH]; intros st ended logged; simpl.
  - by intros [= <- <-].
  - destruct (existsb is_cancel (tick_events tk)); [by intros [= <- <-]|].
    destruct (channel && negb logged && negb (tick_busy tk)).
    + intros Hrec. apply IH in Hrec. by destruct Hrec.
    + apply IH.
Qed.

Lemma start_playback_recorder (st st' : task) (trial_no : Z)
    (env : trial_env) (snd : option Q) (file : option string)
    (channel : bool) (started : option Q) :
  start_playback st trial_no env snd file = (st', channel, started) ->
  same_recorder st st'.
Proof.
  unfold start_playback. destruct snd; [destruct (play env)|];
    by intros [= <- <- <-].
Qed.

Lemma finish_recording_recorder (st st' : task) (trial_no : Z)
    (env : trial_env) (name name' : option string) :
  finish_recording st trial_no env name = (st', name') ->
  same_recorder st st'.
Proof.
  unfold finish_recording. destruct name; [destruct (write_error env)|];
    by intros [= <- <-].
Qed.

Lemma force_playback_end_recorder (st : task) (trial_no : Z)
    (env : trial_env) (file : option string) (started ended : option Q) :
  same_recorder st (force_playback_end st trial_no env file started ended).
Proof.
  unfold force_playback_end.
  destruct (time_is_set started); [destruct ended|]; by split.
Qed.

(** The only step of a trial that touches the recorder is
    [start_recording]. *)
Lemma run_trial_recorder `{Formatting} (st : task) (trial_idx : Z)
    (s : stimulus) (env : trial_env) :
  same_recorder
    (start_recording (begin_trial st (trial_idx + 1) s (t_trial_start env))
       trial_idx s env).1
    (run_trial st trial_idx s env).1.
Proof.
  unfold run_trial.
  set (st0 := begin_trial st (trial_idx + 1) s (t_trial_start env)).
  destruct (start_recording st0 trial_idx s env) as [st1 name]. simpl.
  destruct (start_playback st1 _ env _ _) as [[st2 channel] started] eqn:H2.
  apply start_playback_recorder in H2.
  destruct (stimulus_window _ _ _ _ _ _ _) as [st4 wres] eqn:H4.
  apply stimulus_window_recorder in H4.
  assert (H24 : same_recorder st1 st4).
  { eapply same_recorder_trans; [exact H2|]. by destruct H4. }
  destruct wres as [t_return|ended logged]; [done|].
  destruct (finish_recording st4 _ env name) as [st5 name'] eqn:H5.
  apply finish_recording_recorder in H5.
  pose proof (force_playback_end_recorder st5 (trial_idx + 1) env
                (match load_sound st0 env with
                 | Some _ => Some (spanish s +:+ ".mp3")
                 | None => None
                 end) started ended) as H6.
  assert (H16 : same_recorder st1 (force_playback_end st5 (trial_idx + 1) env
                (match load_sound st0 env with
                 | Some _ => Some (spanish s +:+ ".mp3")
                 | None => None
                 end) started ended)).
  { eapply same_recorder_trans; [exact H24|].
    eapply same_recorder_trans; [exact H5|exact H6]. }
  destruct (show_fixation (fixation_polls env)); by destruct H16.
Qed.

(** A trial leaves a recorder that is down as it is, and calls [sd.rec]
    once when the recorder is up, clearing the flag if the call raises. *)
Lemma run_trial_attempt `{Formatting} (st : task) (trial_idx : Z)
    (s : stimulus) (env : trial_env) :
  let st' := (run_trial st trial_idx s env).1 in
  if audio_available st then
    rec_attempts st'
      = rec_attempts st ++ [((trial_idx + 1)%Z, bool_decide (rec_error env = None))]
    /\ audio_available st' = bool_decide (rec_error env = None)
  else same_recorder st st'.
Proof.
  destruct (run_trial_recorder st trial_idx s env) as [Ha Hr].
  cbv zeta. unfold same_recorder. rewrite Ha, Hr.
  unfold start_recording, begin_trial. simpl.
  destruct (audio_available st) eqn:Hav; simpl.
  - by destruct (rec_error env).
  - by split.
Qed.

Lemma run_trial_sticky `{Formatting} (st : task) (trial_idx : Z)
    (s : stimulus) (env : trial_env) :
  sticky_failure st -> sticky_failure (run_trial st trial_idx s env).1.
Proof.
  intros Hst. pose proof (run_trial_attempt st trial_idx s env) as Hrun.
  cbv zeta in Hrun. destruct (audio_available st) eqn:Hav.
  - destruct Hrun as [Hr Ha]. intros before n after Heq. rewrite Hr in Heq.
    destruct after as [|a after _] using rev_ind.
    + apply (app_inj_tail (rec_attempts st) before) in Heq as [_ Heq].
      injection Heq as _ Heq. split; [done|]. by rewrite Ha, Heq.
    + rewrite app_comm_cons, app_assoc in Heq.
      apply app_inj_tail in Heq as [Heq _].
      destruct (Hst _ _ _ Heq) as [_ Hdown]. congruence.
  - destruct Hrun as [Ha Hr]. intros before n after Heq. rewrite Hr in Heq.
    destruct (Hst _ _ _ Heq) as [-> _]. split; [done|]. congruence.
Qed.

Lemma run_trials_sticky `{Formatting} (todo : list (stimulus * trial_env))
    (st : task) (trial_idx : Z) (trial_data : list trial_info) :
  sticky_failure st ->
  sticky_failure (run_trials st trial_idx todo trial_data).1.1.1.
Proof.
  revert st trial_idx trial_data.
  induction todo as [|[s env] todo IH]; intros st trial_idx trial_data Hst;
    simpl; [done|].
  pose proof (run_trial_sticky st trial_idx s env Hst) as Hnext.
  destruct (run_trial st trial_idx s env) as [st' [[[info|] t0] t1]]; simpl in *.
  - by apply IH.
  - done.
Qed.

(** C7: over a session, a recording start that raised is the last recording
    start of the session, and the audio-availability flag is false when the
    session ends: no later trial calls the recorder, and nothing sets the
    flag again. *)
Theorem recording_failure_is_sticky `{Formatting} `{DataFrame} (st0 : task)
    (env : session_env) (before after : list (Z * bool)) (n : Z) :
  rec_attempts st0 = [] ->
  rec_attempts (final_state (run_task st0 env)) = before ++ (n, false) :: after ->
  after = [] /\ audio_available (final_state (run_task st0 env)) = false.
Proof.
  intros Hfresh.
  assert (Hsticky : sticky_failure (final_state (run_task st0 env))).
  { unfold run_task.
    assert (Hinit : sticky_failure
                      (initialize_playback (initialize_audio st0 env) env)).
    { intros b m a Heq. exfalso.
      unfold initialize_playback, initialize_audio in Heq.
      destruct (mixer_init_error env), (query_devices_error env);
        simpl in Heq; rewrite Hfresh in Heq; by destruct b. }
    set (st1 := initialize_playback (initialize_audio st0 env) env) in *.
    destruct (instructions_confirmed env); simpl; [|done].
    destruct (trigger_received env) as [trigger|]; simpl; [|done].
    destruct (show_fixation (initial_rest_polls env)); simpl; [|done].
    set (st2 := log_append (log_append (set_trigger st1 (Some trigger)) _) _).
    assert (Hst2 : sticky_failure st2) by done.
    pose proof (run_trials_sticky (trials env) st2 0 [] Hst2) as Hloop.
    destruct (run_trials st2 0 (trials env) [])
      as [[[st3 trial_data] interrupted] last_idx]. done. }
  intros Heq. exact (Hsticky _ _ _ Heq).
Qed.

Lemma recording_failure_is_sticky_witness :
  let st := final_state (run_task (H := plain_formatting) (H0 := stable_frame)
                           (new_task "001" "s1" "rec/001/s1") three_trials) in
  @nil (Z * bool) = [] /\ audio_available st = false.
Proof.
  apply (recording_failure_is_sticky (H := plain_formatting)
           (H0 := stable_frame) (new_task "001" "s1" "rec/001/s1")
           three_trials [(1%Z, true)] [] 2).
  - reflexivity.
  - vm_compute. reflexivity.
Defined.

Example three_trials_attempts :
  rec_attempts
    (final_state (run_task (H := plain_formatting) (H0 := stable_frame)
                    (new_task "001" "s1" "rec/001/s1") three_trials))
  = [(1%Z, true); (2%Z, false)].
Proof. vm_compute. reflexivity. Qed.

(** ** The saved timeline *)

#[local] Instance onset_le_total : Total onset_le.
Proof.
  intros a b. unfold onset_le.
  destruct (Qlt_le_dec (row_onset a) (row_onset b)); [left|right]; lra.
Qed.

#[local] Instance onset_le_trans : Transitive onset_le.
Proof. intros a b c. unfold onset_le. lra. Qed.

Lemma merge_sort_sorts_by_onset : sorts_by_onset (merge_sort onset_le).
Proof.
  intros l. split; [apply merge_sort_Permutation|].
  apply Sorted_merge_sort, _.
Qed.

Lemma reversing_sorts_by_onset :
  sorts_by_onset (fun l => merge_sort onset_le (reverse l)).
Proof.
  intros l. split.
  - rewrite merge_sort_Permutation. apply reverse_Permutation.
  - apply Sorted_merge_sort, _.
Qed.

(** Two sorted arrangements of the same rows show the same onsets, place
    by place. *)
Lemma sorted_onsets_unique (l1 l2 : list log_row) :
  Sorted onset_le l1 -> Sorted onset_le l2 -> l1 ≡ₚ l2 ->
  map onset_key l1 = map onset_key l2.
Proof.
  intros Hs1 Hs2 Hp.
  assert (Transitive Qle) by (intros x y z; apply Qle_trans).
  apply (Sorted_unique_strong Qle).
  - intros x1 x2 Hx1 Hx2 Hle Hge.
    apply list_elem_of_fmap in Hx1 as (r1 & -> & _).
    apply list_elem_of_fmap in Hx2 as (r2 & -> & _).
    unfold onset_key in *.
    rewrite <- (Qcanon.Qred_involutive (row_onset r1)).
    rewrite <- (Qcanon.Qred_involutive (row_onset r2)).
    apply Qred_complete. lra.
  - apply (Sorted_fmap onset_key onset_le Qle); [|done].
    intros x y Hxy. unfold onset_key. by apply Qred_le.
  - apply (Sorted_fmap onset_key onset_le Qle); [|done].
    intros x y Hxy. unfold onset_key. by apply Qred_le.
  - by apply Permutation_map.
Qed.

(** C3 (as amended): with a sort that returns the rows rearranged in
    non-decreasing order of onset, the saved timeline is sorted by onset
    ascending and holds exactly the emitted events, each with the three
    session columns; sorting the saved rows again gives the same onsets in
    the same places.  The order among rows of equal onset is left to the
    sort. *)
Theorem saved_log_sorted `{DataFrame} (st : task) (interrupted : bool)
    (rows : list log_row) :
  sorts_by_onset sort_values_by_onset ->
  save_detailed_log st interrupted = Some rows ->
  Sorted onset_le rows /\
  rows ≡ₚ map (tag_row st interrupted) (detailed_log st) /\
  map onset_key (sort_values_by_onset rows) = map onset_key rows.
Proof.
  intros Hsort. unfold save_detailed_log.
  destruct (detailed_log st) as [|e log]; [done|]. intros [= <-].
  destruct (Hsort (map (tag_row st interrupted) (e :: log))) as [Hperm Hsorted].
  split; [done|]. split; [done|].
  destruct (Hsort (sort_values_by_onset
                     (map (tag_row st interrupted) (e :: log))))
    as [Hperm' Hsorted'].
  by apply sorted_onsets_unique.
Qed.

Lemma saved_log_sorted_witness :
  let rows :=
    default [] (save_detailed_log (H := stable_frame) tied_task false) in
  Sorted onset_le rows /\
  rows ≡ₚ map (tag_row tied_task false) (detailed_log tied_task) /\
  map onset_key (sort_values_by_onset (DataFrame := stable_frame) rows)
  = map onset_key rows.
Proof.
  apply (saved_log_sorted (H := stable_frame) tied_task false).
  - exact merge_sort_sorts_by_onset.
  - apply default_Some. apply (bool_decide_unpack _). vm_compute. exact I.
Defined.

(** A sort that meets the contract of the default sort and returns rows of
    equal onset in reverse: the two events of [tied_task] come out swapped,
    and sorting the saved rows again swaps them back. *)
Lemma saved_log_ties_unordered :
  ~ (forall D : DataFrame,
       sorts_by_onset (@sort_values_by_onset D) ->
       forall st interrupted, timeline_spec (H := D) st interrupted).
Proof.
  intros Hclaim.
  specialize (Hclaim reversing_frame reversing_sorts_by_onset tied_task false).
  destruct (Hclaim (default [] (save_detailed_log (H := reversing_frame)
                                  tied_task false)))
    as (_ & Hstable & _).
  - apply default_Some. apply (bool_decide_unpack _). vm_compute. exact I.
  - specialize (Hstable 12).
    apply (f_equal (map (fun r => ev_type (lr_event r)))) in Hstable.
    vm_compute in Hstable. discriminate Hstable.
Qed.

Example saved_order_stable_sort :
  option_map (map (fun r => ev_type (lr_event r)))
    (save_detailed_log (H := stable_frame) tied_task true)
  = Some [audio_playback_end; fixation_onset].
Proof. vm_compute. reflexivity. Qed.

Example saved_order_reversing_sort :
  option_map (map (fun r => ev_type (lr_event r)))
    (save_detailed_log (H := reversing_frame) tied_task true)
  = Some [fixation_onset; audio_playback_end].
Proof. vm_compute. reflexivity. Qed.
